(** * polars-dataset: the delegating [PolarsDataset] proxy of [src/dataset.py]

    The module defines one frozen dataclass, [PolarsDataset], that holds a
    polars container ([data]) next to one metadata field ([extra_attr]) and
    forwards attribute access, operators and a few named methods to the
    container, re-wrapping container-valued results, and one free function,
    [concat].

    The embedding is shallow: every method of the class is a Rocq function in
    an exception monad.  polars itself is not part of the repository; it is a
    parameter of the development (a [host]).  Python resolves attribute
    access and calls at run time, and a proxy may hold another proxy as its
    payload, so the methods are written against the interpreter's [getattr],
    call and [len] primitives (a [runtime]), and the interpreter is obtained
    by iterating the class body up to a recursion limit, past which Python
    raises [RecursionError]. *)

From stdpp Require Import gmap strings list fin_maps.
From Stdlib Require Import ZArith.

Set Warnings "-register-all".
Local Open Scope string_scope.

(** ** Exceptions and outcomes *)

Inductive exception :=
| AttributeError
| TypeError
| NotImplementedError
| AssertionError (msg : string)
| RecursionError
| ForeignError (name : string).

Inductive outcome (A : Type) :=
| Ok (a : A)
| Raise (e : exception).
Arguments Ok {A} a.
Arguments Raise {A} e.

#[global] Instance outcome_ret : MRet outcome := @Ok.
#[global] Instance outcome_bind : MBind outcome :=
  λ A B f m, match m with Ok a => f a | Raise e => Raise e end.

(** ** Python values *)

(** The classes polars exports that the module imports by name. *)
Inductive pytype :=
| DataFrame
| GroupBy
| DynamicGroupBy
| RollingGroupBy
| LazyFrame
| LazyGroupBy
| OtherType.

#[global] Instance pytype_eq_dec : EqDecision pytype.
Proof. solve_decision. Defined.

(** The names bound in the body of [class PolarsDataset]. *)
Inductive method :=
| m_getattr | m_wrap_method
| m_comp | m_eq | m_ne | m_gt | m_lt | m_ge | m_le
| m_apply_op
| m_floordiv | m_truediv | m_mul | m_rmul | m_add | m_radd | m_sub | m_mod
| m_getstate | m_getitem | m_iter | m_reversed | m_bool | m_len | m_copy
| m_join | m_join_asof | m_partition_by.

(** [data: DataFrameLikeType], [extra_attr: str = "hello!"].  Python does not
    enforce the annotations, so both fields hold arbitrary values. *)
Record PolarsDataset_ (V : Type) := mkPolarsDataset {
  data : V;
  extra_attr : V
}.
Arguments mkPolarsDataset {V} data extra_attr.
Arguments data {V} p.
Arguments extra_attr {V} p.

Section Values.
(** [Obj]: the objects of the outside world (polars containers, their bound
    methods, scalars of the library, ...).  [K]: hashable dictionary keys. *)
Context {Obj K : Type} `{Countable K}.

Inductive value :=
| VObj (o : Obj)
| VInt (z : Z)
| VStr (s : string)
| VList (l : list value)
| VDict (d : gmap K value)
| VDataset (p : PolarsDataset_ value)
| VMethod (self : PolarsDataset_ value) (m : method)
| VWrapper (self : PolarsDataset_ value) (func : value).

Definition PolarsDataset := PolarsDataset_ value.

Definition kwargs := list (string * value).

(** The external collaborator and the builtins the module relies on:
    the class of a foreign object, [callable], [getattr], call and [len] on
    foreign objects, the attributes that Python itself supplies (those of
    lists, dicts, strings, integers and function objects, and those that
    [object] and the [dataclass] decorator give to an instance of the
    class), and [pl.concat].

    [pl.concat] is handed an iterable, which it consumes itself:
    [pl_concat] is its outcome on an iterable that yields the given values
    and ends, [pl_concat_interrupted] its outcome on an iterable that yields
    the given values and then raises the given exception (polars may let the
    exception through, or may have failed over its own arguments before it
    iterates). *)
Record host := Host {
  obj_type : Obj → pytype;
  obj_callable : Obj → bool;
  obj_getattr : Obj → string → outcome value;
  obj_call : Obj → list value → kwargs → outcome value;
  obj_len : Obj → outcome Z;
  builtin_getattr : value → string → outcome value;
  pl_concat : list value → kwargs → outcome value;
  pl_concat_interrupted : list value → exception → kwargs → outcome value
}.

(** What the interpreter offers to the class body: the builtin [getattr],
    the call of a value, and the builtin [len]. *)
Record runtime := Runtime {
  rt_getattr : value → string → outcome value;
  rt_call : value → list value → kwargs → outcome value;
  rt_len : value → outcome value
}.

End Values.
Arguments value Obj K {_ _}.
Arguments PolarsDataset Obj K {_ _}.
Arguments kwargs Obj K {_ _}.
Arguments host Obj K {_ _}.
Arguments runtime Obj K {_ _}.

(** ** Helpers of the interpreter *)

Section Helpers.
Context {Obj K : Type} `{Countable K}.
Abbreviation value := (value Obj K).
Abbreviation kwargs := (kwargs Obj K).

(** Lookup in an ordered table of named entries (the class dictionary, the
    keyword arguments of a call). *)
Fixpoint assoc {A} (name : string) (l : list (string * A)) : option A :=
  match l with
  | [] => None
  | (k, v) :: l' => if String.eqb k name then Some v else assoc name l'
  end.

Definition without {A} (name : string) (l : list (string * A)) : list (string * A) :=
  filter (λ kv, negb (String.eqb kv.1 name)) l.

(** Binding of the arguments of a call to the named parameters of a [def]
    (after [self]): positionally first, then by keyword.  Returns the bound
    values and what is left for [*args] and [**kwargs]. *)
Fixpoint bind_named (params : list string) (args : list value) (kw : kwargs)
  : outcome (list value * (list value * kwargs)) :=
  match params with
  | [] => Ok ([], (args, kw))
  | p :: ps =>
    match args with
    | a :: args' =>
      match assoc p kw with
      | Some _ => Raise TypeError
      | None => '(bound, rest) ← bind_named ps args' kw; mret (a :: bound, rest)
      end
    | [] =>
      match assoc p kw with
      | Some a => '(bound, rest) ← bind_named ps [] (without p kw); mret (a :: bound, rest)
      | None => Raise TypeError
      end
    end
  end.

(** [variadic] says whether the [def] ends in [*args, **kwargs]. *)
Definition bind_args (params : list string) (variadic : bool)
    (args : list value) (kw : kwargs)
  : outcome (list value * (list value * kwargs)) :=
  '(bound, rest) ← bind_named params args kw;
  if variadic then mret (bound, rest)
  else match rest with
       | ([], []) => mret (bound, rest)
       | _ => Raise TypeError
       end.

(** A generator expression [(f(x) for x in l)] as its consumer sees it:
    the values it yields and, when some [f(x)] raises, the exception that
    ends it.  What follows a failing element is never evaluated. *)
Fixpoint generate {A B} (f : A → outcome B) (l : list A)
  : list B * option exception :=
  match l with
  | [] => ([], None)
  | x :: l' =>
    match f x with
    | Ok y => let '(ys, e) := generate f l' in (y :: ys, e)
    | Raise e => ([], Some e)
    end
  end.

End Helpers.

(** ** The class [PolarsDataset] *)

(** [DataFrameLikeClasses], the tuple tested by [isinstance]. *)
Definition DataFrameLikeClasses : list pytype :=
  [DataFrame; GroupBy; DynamicGroupBy; RollingGroupBy; LazyFrame; LazyGroupBy].

(** The dictionary of the class: every name the class body binds to a
    function.  The two fields live on the instance. *)
Definition class_dict : list (string * method) :=
  [ ("__getattr__", m_getattr); ("_wrap_method", m_wrap_method);
    ("_comp", m_comp);
    ("__eq__", m_eq); ("__ne__", m_ne); ("__gt__", m_gt);
    ("__lt__", m_lt); ("__ge__", m_ge); ("__le__", m_le);
    ("_apply_op", m_apply_op);
    ("__floordiv__", m_floordiv); ("__truediv__", m_truediv);
    ("__mul__", m_mul); ("__rmul__", m_rmul);
    ("__add__", m_add); ("__radd__", m_radd);
    ("__sub__", m_sub); ("__mod__", m_mod);
    ("__getstate__", m_getstate); ("__getitem__", m_getitem);
    ("__iter__", m_iter); ("__reversed__", m_reversed);
    ("__bool__", m_bool); ("__len__", m_len); ("__copy__", m_copy);
    ("join", m_join); ("join_asof", m_join_asof);
    ("partition_by", m_partition_by) ].

(** The other names that ordinary lookup finds on an instance, none of them
    bound in the class body: those inherited from [object], those the
    [class] statement itself stores on the class, and those the decorator
    [dataclasses.dataclass(frozen=True)] adds ([__eq__] it leaves alone, the
    body defines it).  The list is the union over CPython 3.8 to 3.14; a
    few of the names exist only from some version on ([__match_args__]
    3.10, [__replace__], [__firstlineno__] and [__static_attributes__]
    3.13, [__annotate_func__] and [__annotations_cache__] 3.14).  The names
    of the metaclass ([__name__], [__qualname__], [__mro__], [__bases__],
    ...) are not found on an instance and are not in the list. *)
Definition inherited_names : list string :=
  [ "__class__"; "__delattr__"; "__dir__"; "__doc__"; "__format__";
    "__getattribute__"; "__hash__"; "__init__"; "__init_subclass__";
    "__new__"; "__reduce__"; "__reduce_ex__"; "__repr__"; "__setattr__";
    "__sizeof__"; "__str__"; "__subclasshook__";
    "__module__"; "__dict__"; "__weakref__"; "__annotations__";
    "__firstlineno__"; "__static_attributes__";
    "__annotate_func__"; "__annotations_cache__";
    "__dataclass_fields__"; "__dataclass_params__"; "__match_args__";
    "__replace__" ].

Section Class.
Context {Obj K : Type} `{Countable K}.
Context (h : host Obj K).
Abbreviation value := (value Obj K).
Abbreviation kwargs := (kwargs Obj K).
Abbreviation PolarsDataset := (PolarsDataset Obj K).
Abbreviation runtime := (runtime Obj K).

(** [isinstance(v, classes)] for a tuple of polars classes.  Only foreign
    objects can be instances of them. *)
Definition isinstance (v : value) (classes : list pytype) : bool :=
  match v with
  | VObj o => bool_decide (obj_type h o ∈ classes)
  | _ => false
  end.

(** [isinstance(v, PolarsDataset)], [isinstance(v, list)],
    [isinstance(v, dict)]. *)
Definition isinstance_PolarsDataset (v : value) : bool :=
  match v with VDataset _ => true | _ => false end.

Definition isinstance_list (v : value) : bool :=
  match v with VList _ => true | _ => false end.

Definition isinstance_dict (v : value) : bool :=
  match v with VDict _ => true | _ => false end.

(** [callable(v)].  The class defines no [__call__], so an instance of
    [PolarsDataset] is not callable. *)
Definition callable (v : value) : bool :=
  match v with
  | VObj o => obj_callable h o
  | VMethod _ _ | VWrapper _ _ => true
  | _ => false
  end.

(** [dataclasses.replace(obj, data=...)] and [dataclasses.replace(obj)]:
    a new instance built from the fields of [obj], [data] overridden when
    given. *)
Definition dataclasses_replace (obj : PolarsDataset) (changes : option value)
  : PolarsDataset :=
  mkPolarsDataset (default (data obj) changes) (extra_attr obj).

Section Body.
Variable rt : runtime.

(** [_wrap_method] returns the closure; [wrapper] is its body. *)
Definition _wrap_method (self : PolarsDataset) (__func : value) : value :=
  VWrapper self __func.

Definition wrapper (self : PolarsDataset) (__func : value)
    (args : list value) (kw : kwargs) : outcome value :=
  result ← rt_call rt __func args kw;
  if isinstance result DataFrameLikeClasses
  then mret (VDataset (dataclasses_replace self (Some result)))
  else mret result.

Definition __getattr__ (self : PolarsDataset) (__name : string) : outcome value :=
  attr ← rt_getattr rt (data self) __name;
  if isinstance attr DataFrameLikeClasses
  then mret (VDataset (dataclasses_replace self (Some attr)))
  else if callable attr
  then mret (_wrap_method self attr)
  else mret attr.

(** The names that ordinary lookup finds on an instance: the two fields,
    the names of the class body, and the names that [object], the [class]
    statement and the decorator supply. *)
Definition found_by_lookup (name : string) : bool :=
  String.eqb name "data" || String.eqb name "extra_attr"
  || bool_decide (is_Some (assoc name class_dict))
  || existsb (String.eqb name) inherited_names.

(** Attribute access on an instance: the fields, then the class body, then
    what [object] and the decorator supply, which is Python's own and never
    reaches the payload; [__getattr__] runs only when all of them miss. *)
Definition getattribute (self : PolarsDataset) (name : string) : outcome value :=
  if String.eqb name "data" then mret (data self)
  else if String.eqb name "extra_attr" then mret (extra_attr self)
  else match assoc name class_dict with
       | Some m => mret (VMethod self m)
       | None =>
         if existsb (String.eqb name) inherited_names
         then builtin_getattr h (VDataset self) name
         else __getattr__ self name
       end.

Definition _comp (self : PolarsDataset) (other op : value) : outcome value :=
  if isinstance_PolarsDataset other
  then f ← getattribute self "_compare_to_other_df"; rt_call rt f [other; op] []
  else f ← getattribute self "_compare_to_non_df"; rt_call rt f [other; op] [].

Definition __eq__ (self : PolarsDataset) (other : value) := _comp self other (VStr "eq").
Definition __ne__ (self : PolarsDataset) (other : value) := _comp self other (VStr "neq").
Definition __gt__ (self : PolarsDataset) (other : value) := _comp self other (VStr "gt").
Definition __lt__ (self : PolarsDataset) (other : value) := _comp self other (VStr "lt").
Definition __ge__ (self : PolarsDataset) (other : value) := _comp self other (VStr "gt_eq").
Definition __le__ (self : PolarsDataset) (other : value) := _comp self other (VStr "lt_eq").

Definition _apply_op (self : PolarsDataset) (__other : value) (__op : string)
    (args : list value) (kw : kwargs) : outcome value :=
  match __other with
  | VDataset o =>
    f ← getattribute self __op;
    rt_call rt f (data o :: args) kw
  | _ =>
    f ← rt_getattr rt (data self) __op;
    new_data ← rt_call rt f (__other :: args) kw;
    mret (VDataset (dataclasses_replace self (Some new_data)))
  end.

Definition __floordiv__ (self : PolarsDataset) (other : value) :=
  _apply_op self other "__floordiv__" [] [].
Definition __truediv__ (self : PolarsDataset) (other : value) :=
  _apply_op self other "__truediv__" [] [].
Definition __mul__ (self : PolarsDataset) (other : value) :=
  _apply_op self other "__mul__" [] [].
Definition __rmul__ (self : PolarsDataset) (other : value) :=
  _apply_op self other "__rmul__" [] [].
Definition __add__ (self : PolarsDataset) (other : value) :=
  _apply_op self other "__add__" [] [].
Definition __radd__ (self : PolarsDataset) (other : value) :=
  _apply_op self other "__radd__" [] [].
Definition __sub__ (self : PolarsDataset) (other : value) :=
  _apply_op self other "__sub__" [] [].
Definition __mod__ (self : PolarsDataset) (other : value) :=
  _apply_op self other "__mod__" [] [].

Definition __getstate__ (self : PolarsDataset) : outcome value :=
  Raise NotImplementedError.

Definition __getitem__ (self : PolarsDataset) (item : value) : outcome value :=
  f ← rt_getattr rt (data self) "__getitem__";
  wrapper self f [item] [].

Definition __iter__ (self : PolarsDataset) : outcome value :=
  f ← rt_getattr rt (data self) "__iter__"; rt_call rt f [] [].

Definition __reversed__ (self : PolarsDataset) : outcome value :=
  f ← rt_getattr rt (data self) "__reversed__"; rt_call rt f [] [].

Definition __bool__ (self : PolarsDataset) : outcome value :=
  f ← rt_getattr rt (data self) "__bool__"; rt_call rt f [] [].

Definition __len__ (self : PolarsDataset) : outcome value :=
  rt_len rt (data self).

Definition __copy__ (self : PolarsDataset) : outcome value :=
  mret (VDataset (dataclasses_replace self None)).

(** The call [self._apply_op(..., *args, **kwargs)] of [join] and
    [join_asof]: the instance and the arguments are bound to the parameters
    of [_apply_op], whose private names the compiler has mangled, and a
    keyword of the caller that names one of them collides with the
    positional argument: [TypeError]. *)
Definition call_apply_op (self : PolarsDataset)
    (args : list value) (kw : kwargs) : outcome value :=
  '(bound, (args', kw')) ←
    bind_args ["self"; "_PolarsDataset__other"; "_PolarsDataset__op"] true
      (VDataset self :: args) kw;
  match bound with
  | [_; a; VStr op] => _apply_op self a op args' kw'
  | _ => Raise TypeError
  end.

Definition join (self : PolarsDataset) (other : value)
    (args : list value) (kw : kwargs) : outcome value :=
  call_apply_op self (other :: VStr "join" :: args) kw.

Definition join_asof (self : PolarsDataset) (other : value)
    (args : list value) (kw : kwargs) : outcome value :=
  call_apply_op self (other :: VStr "join_asof" :: args) kw.

Definition partition_by (self : PolarsDataset)
    (args : list value) (kw : kwargs) : outcome value :=
  f ← rt_getattr rt (data self) "partition_by";
  result ← rt_call rt f args kw;
  match result with
  | VList l =>
    mret (VList (map (λ new_data,
            VDataset (dataclasses_replace self (Some new_data))) l))
  | VDict d =>
    mret (VDict (list_to_map (map (λ '(name, new_data),
            (name, VDataset (dataclasses_replace self (Some new_data))))
            (map_to_list d))))
  | _ => Raise (AssertionError "Unknown return type from ``partition_by``")
  end.

(** The free function [concat].  [items] is what the iterable yields.  The
    generator [(item.data for item in items)] is passed to [pl.concat]
    unevaluated, with the keyword arguments: the lookups run inside
    [pl.concat], so when one of them fails it is [pl.concat] that sees the
    exception, after the payloads before it. *)
Definition concat (items : list value) (base : PolarsDataset) (kw : kwargs)
  : outcome value :=
  new_data ←
    match generate (λ item, rt_getattr rt item "data") items with
    | (payloads, None) => pl_concat h payloads kw
    | (payloads, Some e) => pl_concat_interrupted h payloads e kw
    end;
  mret (VDataset (dataclasses_replace base (Some new_data))).

(** The call of a bound method: the instance comes first, the arguments
    are bound to the parameters of the [def] ([self] among them; private
    names are mangled by the compiler), then the body runs. *)
Definition call_method (self : PolarsDataset) (m : method)
    (args : list value) (kw : kwargs) : outcome value :=
  let nullary (body : outcome value) :=
    _ ← bind_args ["self"] false (VDataset self :: args) kw; body in
  let unary (param : string) (body : value → outcome value) :=
    '(bound, _) ← bind_args ["self"; param] false (VDataset self :: args) kw;
    match bound with [_; a] => body a | _ => Raise TypeError end in
  match m with
  | m_getattr =>
    unary "_PolarsDataset__name" (λ a,
      match a with VStr n => __getattr__ self n | _ => Raise TypeError end)
  | m_wrap_method =>
    unary "_PolarsDataset__func" (λ a, mret (_wrap_method self a))
  | m_comp =>
    '(bound, _) ←
      bind_args ["self"; "other"; "op"] false (VDataset self :: args) kw;
    match bound with [_; a; b] => _comp self a b | _ => Raise TypeError end
  | m_eq => unary "other" (__eq__ self)
  | m_ne => unary "other" (__ne__ self)
  | m_gt => unary "other" (__gt__ self)
  | m_lt => unary "other" (__lt__ self)
  | m_ge => unary "other" (__ge__ self)
  | m_le => unary "other" (__le__ self)
  | m_apply_op => call_apply_op self args kw
  | m_floordiv => unary "other" (__floordiv__ self)
  | m_truediv => unary "other" (__truediv__ self)
  | m_mul => unary "other" (__mul__ self)
  | m_rmul => unary "other" (__rmul__ self)
  | m_add => unary "other" (__add__ self)
  | m_radd => unary "other" (__radd__ self)
  | m_sub => unary "other" (__sub__ self)
  | m_mod => unary "other" (__mod__ self)
  | m_getstate => nullary (__getstate__ self)
  | m_getitem => unary "item" (__getitem__ self)
  | m_iter => nullary (__iter__ self)
  | m_reversed => nullary (__reversed__ self)
  | m_bool => nullary (__bool__ self)
  | m_len => nullary (__len__ self)
  | m_copy => nullary (__copy__ self)
  | m_join =>
    '(bound, (args', kw')) ←
      bind_args ["self"; "other"] true (VDataset self :: args) kw;
    match bound with
    | [_; a] => join self a args' kw'
    | _ => Raise TypeError
    end
  | m_join_asof =>
    '(bound, (args', kw')) ←
      bind_args ["self"; "other"] true (VDataset self :: args) kw;
    match bound with
    | [_; a] => join_asof self a args' kw'
    | _ => Raise TypeError
    end
  | m_partition_by =>
    '(_, (args', kw')) ← bind_args ["self"] true (VDataset self :: args) kw;
    partition_by self args' kw'
  end.

(** One more level of calls on top of [rt]. *)
Definition step : runtime := {|
  rt_getattr v name :=
    match v with
    | VObj o => obj_getattr h o name
    | VDataset p => getattribute p name
    | _ => builtin_getattr h v name
    end;
  rt_call f args kw :=
    match f with
    | VObj o => obj_call h o args kw
    | VMethod self m => call_method self m args kw
    | VWrapper self func => wrapper self func args kw
    | _ => Raise TypeError
    end;
  rt_len v :=
    match v with
    | VObj o => n ← obj_len h o; mret (VInt n)
    | VStr s => mret (VInt (Z.of_nat (String.length s)))
    | VList l => mret (VInt (Z.of_nat (length l)))
    | VDict d => mret (VInt (Z.of_nat (size d)))
    | VDataset p => __len__ p
    | _ => Raise TypeError
    end
|}.

End Body.

(** The interpreter with recursion limit [limit]. *)
Definition exhausted : runtime := {|
  rt_getattr _ _ := Raise RecursionError;
  rt_call _ _ _ := Raise RecursionError;
  rt_len _ := Raise RecursionError
|}.

Fixpoint python (limit : nat) : runtime :=
  match limit with
  | 0 => exhausted
  | S n => step (python n)
  end.

End Class.

Arguments python {Obj K _ _} h limit.
Arguments exhausted {Obj K _ _}.

(** ** What the specification says about comparisons

    The comparison routine as the specification words it: a proxy on the
    right is replaced by its payload, the payload-level comparison of the
    route is invoked, and its result is wrapped with the metadata of the
    left operand. *)

Section Specified.
Context {Obj K : Type} `{Countable K}.

Definition payload_of (v : value Obj K) : value Obj K :=
  match v with VDataset o => data o | _ => v end.

Definition comp_route (other : value Obj K) : string :=
  if isinstance_PolarsDataset other
  then "_compare_to_other_df" else "_compare_to_non_df".

Definition specified_comp (rt : runtime Obj K) (self : PolarsDataset Obj K)
    (other : value Obj K) (op : string) : outcome (value Obj K) :=
  compare ← rt_getattr rt (data self) (comp_route other);
  result ← rt_call rt compare [payload_of other; VStr op] [];
  mret (VDataset (dataclasses_replace self (Some result))).

End Specified.

(** The six comparison operators, the method each one runs, and the name
    polars gives to each comparison. *)
Inductive comparison_operator := op_eq | op_ne | op_gt | op_lt | op_ge | op_le.

Definition comparison_name (c : comparison_operator) : string :=
  match c with
  | op_eq => "eq" | op_ne => "neq" | op_gt => "gt"
  | op_lt => "lt" | op_ge => "gt_eq" | op_le => "lt_eq"
  end.

Definition compare {Obj K : Type} `{Countable K} (h : host Obj K)
    (rt : runtime Obj K) (c : comparison_operator)
  : PolarsDataset Obj K → value Obj K → outcome (value Obj K) :=
  match c with
  | op_eq => __eq__ h rt | op_ne => __ne__ h rt | op_gt => __gt__ h rt
  | op_lt => __lt__ h rt | op_ge => __ge__ h rt | op_le => __le__ h rt
  end.

(** The eight arithmetic operators, the method each one runs, and the name
    of the payload's method. *)
Inductive arithmetic_operator :=
| op_floordiv | op_truediv | op_mul | op_rmul | op_add | op_radd | op_sub | op_mod.

Definition arithmetic_name (a : arithmetic_operator) : string :=
  match a with
  | op_floordiv => "__floordiv__" | op_truediv => "__truediv__"
  | op_mul => "__mul__" | op_rmul => "__rmul__"
  | op_add => "__add__" | op_radd => "__radd__"
  | op_sub => "__sub__" | op_mod => "__mod__"
  end.

Definition arithmetic {Obj K : Type} `{Countable K} (h : host Obj K)
    (rt : runtime Obj K) (a : arithmetic_operator)
  : PolarsDataset Obj K → value Obj K → outcome (value Obj K) :=
  match a with
  | op_floordiv => __floordiv__ h rt | op_truediv => __truediv__ h rt
  | op_mul => __mul__ h rt | op_rmul => __rmul__ h rt
  | op_add => __add__ h rt | op_radd => __radd__ h rt
  | op_sub => __sub__ h rt | op_mod => __mod__ h rt
  end.

(** The two statements about comparisons as the specification makes them,
    at recursion limit [S n] for the operator and [n] for the payload's
    routine.  [compares_against_payload]: the operator gives what the
    payload-level comparison against the unwrapped operand gives, wrapped.
    [le_as_specified]: [a <= b] is the wrapped payload-level [lt_eq] of the
    two payloads, and is not the wrapped payload-level [gt_eq]. *)
Definition compares_against_payload {Obj K : Type} `{Countable K}
    (h : host Obj K) (n : nat) (c : comparison_operator)
    (self : PolarsDataset Obj K) (other : value Obj K) : Prop :=
  compare h (python h (S n)) c self other
  = specified_comp (python h n) self other (comparison_name c).

Definition le_as_specified {Obj K : Type} `{Countable K}
    (h : host Obj K) (n : nat) (a b : PolarsDataset Obj K) : Prop :=
  __le__ h (python h (S n)) a (VDataset b)
  = specified_comp (python h n) a (VDataset b) "lt_eq"
  ∧ __le__ h (python h (S n)) a (VDataset b)
    ≠ specified_comp (python h n) a (VDataset b) "gt_eq".

(** [PolarsDataset(PolarsDataset(... d ..., e2), e1)]: the value [d] under
    one proxy per metadata value, the outermost first.  Nothing in the class
    prevents a proxy from being the payload of another. *)
Fixpoint nested {Obj K : Type} `{Countable K}
    (metas : list (value Obj K)) (d : value Obj K) : value Obj K :=
  match metas with
  | [] => d
  | e :: rest => VDataset (mkPolarsDataset (nested rest d) e)
  end.

(** ** Recursion limits

    An outcome other than [RecursionError] does not depend on the recursion
    limit it was obtained with: a runtime [rt2] refines [rt1] when it agrees
    with [rt1] wherever [rt1] settles. *)

Definition settled {A : Type} (o : outcome A) : Prop :=
  o ≠ Raise RecursionError.

Record refines {Obj K : Type} `{Countable K} (rt1 rt2 : runtime Obj K) : Prop := {
  refines_getattr v name :
    settled (rt_getattr rt1 v name) →
    rt_getattr rt2 v name = rt_getattr rt1 v name;
  refines_call f args kw :
    settled (rt_call rt1 f args kw) →
    rt_call rt2 f args kw = rt_call rt1 f args kw;
  refines_len v :
    settled (rt_len rt1 v) → rt_len rt2 v = rt_len rt1 v
}.

(** ** A small host

    A stand-in for polars, used to run the class on concrete inputs: an
    eager table is one column of integers, a grouped view remembers the
    table it was made from, and every method of a table is a bound-method
    object.  Like polars' own routines for joins, its comparison of two
    tables inspects the class of the right operand.  What [object] and the
    decorator supply on a proxy is answered with a token, the name itself;
    its [pl.concat] lets an exception of the iterable through. *)

Module Toy.

Inductive obj :=
| Frame (rows : list Z)
| Grouped (rows : list Z)
| Method (owner : obj) (name : string)
| Broken.

Abbreviation val := (value obj Z).

Definition frame_methods : list string :=
  [ "__floordiv__"; "__truediv__"; "__mul__"; "__rmul__"; "__add__";
    "__radd__"; "__sub__"; "__mod__"; "_compare_to_other_df";
    "_compare_to_non_df"; "__getitem__"; "__iter__"; "__reversed__";
    "__bool__"; "head"; "group_by"; "partition_by"; "join" ].

Definition getattr (o : obj) (name : string) : outcome val :=
  match o with
  | Frame rows =>
    if String.eqb name "height" then Ok (VInt (Z.of_nat (length rows)))
    else if existsb (String.eqb name) frame_methods
    then Ok (VObj (Method o name))
    else Raise AttributeError
  | Grouped rows =>
    if String.eqb name "df" then Ok (VObj (Frame rows))
    else Raise AttributeError
  | Broken =>
    if String.eqb name "partition_by" then Ok (VObj (Method o name))
    else Raise AttributeError
  | Method _ _ => Raise AttributeError
  end.

Definition arith (name : string) : option (Z → Z → Z) :=
  assoc name
    [ ("__floordiv__", Z.div); ("__truediv__", Z.div); ("__mul__", Z.mul);
      ("__rmul__", λ x y, Z.mul y x); ("__add__", Z.add);
      ("__radd__", λ x y, Z.add y x); ("__sub__", Z.sub);
      ("__mod__", Z.modulo) ].

Definition cmp (op : string) : option (Z → Z → Z) :=
  let flag (test : Z → Z → bool) := λ x y, if test x y then 1%Z else 0%Z in
  assoc op
    [ ("eq", flag Z.eqb); ("neq", flag (λ x y, negb (Z.eqb x y)));
      ("gt", flag Z.gtb); ("lt", flag Z.ltb);
      ("gt_eq", flag Z.geb); ("lt_eq", flag Z.leb) ].

Definition call_frame (strict : bool) (rows : list Z) (name : string)
    (args : list val) (kw : kwargs obj Z) : outcome val :=
  match arith name, args with
  | Some f, [VInt k] => Ok (VObj (Frame (map (λ x, f x k) rows)))
  | Some f, [VObj (Frame others)] => Ok (VObj (Frame (zip_with f rows others)))
  | Some _, _ => Raise TypeError
  | None, _ =>
    if String.eqb name "_compare_to_other_df" then
      match args with
      | [VObj (Frame others); VStr op] =>
        match cmp op with
        | Some f => Ok (VObj (Frame (zip_with f rows others)))
        | None => Raise (ForeignError "ValueError")
        end
      | [VDataset {| data := VObj (Frame others) |}; VStr op] =>
        if strict then Raise TypeError
        else match cmp op with
             | Some f => Ok (VObj (Frame (zip_with f rows others)))
             | None => Raise (ForeignError "ValueError")
             end
      | _ => Raise TypeError
      end
    else if String.eqb name "_compare_to_non_df" then
      match args with
      | [VInt k; VStr op] =>
        match cmp op with
        | Some f => Ok (VObj (Frame (map (λ x, f x k) rows)))
        | None => Raise (ForeignError "ValueError")
        end
      | _ => Raise TypeError
      end
    else if String.eqb name "__getitem__" then
      match args with
      | [VInt i] => Ok (VInt (nth (Z.to_nat i) rows 0%Z))
      | [VStr _] => Ok (VObj (Frame rows))
      | _ => Raise TypeError
      end
    else if String.eqb name "__iter__" then Ok (VList (map VInt rows))
    else if String.eqb name "__reversed__" then Ok (VList (map VInt (rev rows)))
    else if String.eqb name "__bool__" then Raise TypeError
    else if String.eqb name "head" then
      match args with
      | [VInt n] => Ok (VObj (Frame (take (Z.to_nat n) rows)))
      | _ => Raise TypeError
      end
    else if String.eqb name "group_by" then Ok (VObj (Grouped rows))
    else if String.eqb name "partition_by" then
      match assoc "as_dict" kw with
      | Some (VInt 1) =>
        Ok (VDict (list_to_map (map (λ x, (x, VObj (Frame [x]))) rows)))
      | _ => Ok (VList (map (λ x, VObj (Frame [x])) rows))
      end
    else if String.eqb name "join" then
      match args with
      | VObj (Frame others) :: _ => Ok (VObj (Frame (rows ++ others)%list))
      | _ => Raise TypeError
      end
    else Raise AttributeError
  end.

Definition call (strict : bool) (o : obj) (args : list val) (kw : kwargs obj Z)
  : outcome val :=
  match o with
  | Method (Frame rows) name => call_frame strict rows name args kw
  | Method Broken _ => Ok (VInt 0)
  | _ => Raise TypeError
  end.

Fixpoint concat_rows (payloads : list val) : outcome (list Z) :=
  match payloads with
  | [] => Ok []
  | VObj (Frame rows) :: rest => more ← concat_rows rest; mret (rows ++ more)%list
  | _ => Raise TypeError
  end.

Definition engine (strict : bool) : host obj Z := {|
  obj_type o :=
    match o with
    | Frame _ => DataFrame
    | Grouped _ => GroupBy
    | _ => OtherType
    end;
  obj_callable o := match o with Method _ _ => true | _ => false end;
  obj_getattr := getattr;
  obj_call := call strict;
  obj_len o :=
    match o with
    | Frame rows => Ok (Z.of_nat (length rows))
    | _ => Raise TypeError
    end;
  builtin_getattr v name :=
    match v with
    | VDataset _ =>
      if existsb (String.eqb name) inherited_names
      then Ok (VStr name) else Raise AttributeError
    | _ => Raise AttributeError
    end;
  pl_concat payloads _ :=
    match payloads with
    | [] => Raise (ForeignError "ValueError")
    | _ => rows ← concat_rows payloads; mret (VObj (Frame rows))
    end;
  pl_concat_interrupted _ e _ := Raise e
|}.

Definition polars : host obj Z := engine false.

Definition strict_polars : host obj Z := engine true.

(** [PolarsDataset(data)] with the default [extra_attr], and
    [PolarsDataset(data, extra_attr)]. *)
Definition dataset (rows : list Z) : PolarsDataset obj Z :=
  mkPolarsDataset (VObj (Frame rows)) (VStr "hello!").

Definition tagged (rows : list Z) (tag : string) : PolarsDataset obj Z :=
  mkPolarsDataset (VObj (Frame rows)) (VStr tag).

End Toy.

(** ** Outcomes do not depend on the recursion limit *)

Section Monotone.
Context {Obj K : Type} `{Countable K}.
Context (h : host Obj K).

Lemma settled_Ok {A : Type} (a : A) : settled (Ok a).
Proof. discriminate. Qed.

Lemma bind_refines {A B : Type} (c1 c2 : outcome A) (k1 k2 : A → outcome B) :
  (settled c1 → c2 = c1) →
  (∀ a, c1 = Ok a → settled (k1 a) → k2 a = k1 a) →
  settled (c1 ≫= k1) → c2 ≫= k2 = c1 ≫= k1.
Proof.
  intros Hc Hk Hs. destruct c1 as [a|e]; simpl in *.
  - rewrite Hc by apply settled_Ok. simpl. by apply Hk.
  - rewrite Hc; [done|]. intros [= ->]. by apply Hs.
Qed.

Section Step.
Context (rt1 rt2 : runtime Obj K) (Hrt : refines rt1 rt2).

Ltac refine_step :=
  first
    [ done
    | apply bind_refines; [ first [ apply (refines_getattr _ _ Hrt)
                                 | apply (refines_call _ _ Hrt)
                                 | apply (refines_len _ _ Hrt)
                                 | done
                                 | idtac ]
                          | intros ? ? ]
    | apply (refines_getattr _ _ Hrt)
    | apply (refines_call _ _ Hrt)
    | apply (refines_len _ _ Hrt)
    | progress case_match ].

Lemma wrapper_refines self func args kw :
  settled (wrapper h rt1 self func args kw) →
  wrapper h rt2 self func args kw = wrapper h rt1 self func args kw.
Proof. unfold wrapper. repeat refine_step. Qed.

Lemma getattr_refines self name :
  settled (__getattr__ h rt1 self name) →
  __getattr__ h rt2 self name = __getattr__ h rt1 self name.
Proof. unfold __getattr__. repeat refine_step. Qed.

Lemma getattribute_refines self name :
  settled (getattribute h rt1 self name) →
  getattribute h rt2 self name = getattribute h rt1 self name.
Proof. unfold getattribute. repeat refine_step. Qed.

Lemma comp_refines self other op :
  settled (_comp h rt1 self other op) →
  _comp h rt2 self other op = _comp h rt1 self other op.
Proof.
  unfold _comp. case_match.
  all: apply bind_refines; [apply getattribute_refines|]; intros; by repeat refine_step.
Qed.

Lemma apply_op_refines self other op args kw :
  settled (_apply_op h rt1 self other op args kw) →
  _apply_op h rt2 self other op args kw = _apply_op h rt1 self other op args kw.
Proof.
  unfold _apply_op. case_match.
  all: try (apply bind_refines; [apply getattribute_refines|]; intros; by repeat refine_step).
  all: by repeat refine_step.
Qed.

Lemma call_apply_op_refines self args kw :
  settled (call_apply_op h rt1 self args kw) →
  call_apply_op h rt2 self args kw = call_apply_op h rt1 self args kw.
Proof.
  unfold call_apply_op. apply bind_refines; [done|].
  intros [bound [args' kw']] _.
  repeat case_match; try done. apply apply_op_refines.
Qed.

Lemma partition_by_refines self args kw :
  settled (partition_by rt1 self args kw) →
  partition_by rt2 self args kw = partition_by rt1 self args kw.
Proof. unfold partition_by. repeat refine_step. Qed.

Lemma call_method_refines self m args kw :
  settled (call_method h rt1 self m args kw) →
  call_method h rt2 self m args kw = call_method h rt1 self m args kw.
Proof.
  unfold call_method.
  destruct m; cbv zeta; try apply call_apply_op_refines.
  all: apply bind_refines; [done|]; intros [bound [args' kw']] _.
  all: repeat case_match; try done.
  all: unfold __eq__, __ne__, __gt__, __lt__, __ge__, __le__,
         __floordiv__, __truediv__, __mul__, __rmul__, __add__, __radd__,
         __sub__, __mod__, join, join_asof, __getitem__, __iter__,
         __reversed__, __bool__, __len__.
  all: first [ apply getattr_refines | apply comp_refines
             | apply apply_op_refines | apply call_apply_op_refines
             | apply partition_by_refines
             | idtac ].
  all: try by repeat refine_step.
  all: try (apply bind_refines; [apply (refines_getattr _ _ Hrt)|]; intros; apply wrapper_refines).
Qed.

Lemma step_refines : refines (step h rt1) (step h rt2).
Proof.
  split; simpl.
  - intros [] ?; try done. apply getattribute_refines.
  - intros [] ? ?; try done; [apply call_method_refines|apply wrapper_refines].
  - intros [] ; try done. apply (refines_len _ _ Hrt).
Qed.

End Step.

Lemma python_refines_S n : refines (python h n) (python h (S n)).
Proof.
  induction n as [|n IH].
  - split; simpl; intros; by exfalso.
  - by apply step_refines.
Qed.

Lemma python_refines (n m : nat) : (n ≤ m)%nat → refines (python h n) (python h m).
Proof.
  induction 1 as [|m _ IH]; [by split|].
  pose proof (python_refines_S m) as HS.
  split; intros.
  - rewrite (refines_getattr _ _ HS); rewrite (refines_getattr _ _ IH); done.
  - rewrite (refines_call _ _ HS); rewrite (refines_call _ _ IH); done.
  - rewrite (refines_len _ _ HS); rewrite (refines_len _ _ IH); done.
Qed.

(** A value returned under some recursion limit is returned under every
    larger one. *)
Lemma call_limit_irrelevant (n m : nat) f args kw v :
  (n ≤ m)%nat →
  rt_call (python h n) f args kw = Ok v →
  rt_call (python h m) f args kw = Ok v.
Proof.
  intros Hle Hv. rewrite <- Hv.
  apply (refines_call _ _ (python_refines n m Hle)). by rewrite Hv.
Qed.

End Monotone.

(** ** Properties of the class *)

Section Properties.
Context {Obj K : Type} `{Countable K}.
Context (h : host Obj K).
Abbreviation py := (python h).
Abbreviation rewrap self v :=
  (VDataset (mkPolarsDataset v (extra_attr self)) : value Obj K).

Lemma getattr_deeper n v name r :
  rt_getattr (py n) v name = Ok r → rt_getattr (py (S n)) v name = Ok r.
Proof.
  intros Hr. rewrite <- Hr.
  apply (refines_getattr _ _ (python_refines_S h n)). by rewrite Hr.
Qed.

Lemma call_wrapper n self func args kw :
  rt_call (py (S n)) (VWrapper self func) args kw
  = wrapper h (py n) self func args kw.
Proof. reflexivity. Qed.

Lemma getattribute_missing rt (self : PolarsDataset Obj K) name :
  found_by_lookup name = false →
  getattribute h rt self name = __getattr__ h rt self name.
Proof.
  unfold found_by_lookup, getattribute. intros Hf.
  apply orb_false_iff in Hf as [Hf Hi]. apply orb_false_iff in Hf as [Hf Hc].
  apply orb_false_iff in Hf as [-> ->].
  apply bool_decide_eq_false in Hc.
  destruct (assoc name class_dict); [by destruct Hc|]. by rewrite Hi.
Qed.

(** C1.  Attribute access with a name that ordinary lookup does not find
    (not a field, not bound in the class body, not supplied by [object] or
    the decorator) resolves the name against the payload.  When the payload
    yields [attr]:
    (a) a tabular-family [attr] comes back wrapped in a new proxy with the
    metadata of [self]; (b) otherwise a callable [attr] comes back as a
    wrapper which, for any arguments, calls [attr] and wraps the result in a
    new proxy with the metadata of [self] exactly when the result is
    tabular-family, returning it unchanged otherwise; (c) any other [attr]
    comes back unchanged. *)
Theorem getattr_delegates n (self : PolarsDataset Obj K) name attr :
  found_by_lookup name = false →
  rt_getattr (py n) (data self) name = Ok attr →
  rt_getattr (py (S n)) (VDataset self) name
    = __getattr__ h (py n) self name
  ∧ (isinstance h attr DataFrameLikeClasses = true →
     __getattr__ h (py n) self name = Ok (rewrap self attr))
  ∧ (isinstance h attr DataFrameLikeClasses = false →
     callable h attr = true →
     ∃ w, __getattr__ h (py n) self name = Ok w ∧
       ∀ m args kw result,
         rt_call (py m) attr args kw = Ok result →
         rt_call (py (S m)) w args kw
         = Ok (if isinstance h result DataFrameLikeClasses
               then rewrap self result else result))
  ∧ (isinstance h attr DataFrameLikeClasses = false →
     callable h attr = false →
     __getattr__ h (py n) self name = Ok attr).
Proof.
  intros Hmiss Hattr. split; [by apply getattribute_missing|].
  unfold __getattr__. rewrite Hattr. simpl.
  repeat split.
  - by intros ->.
  - intros -> ->. exists (VWrapper self attr). split; [done|].
    intros m args kw result Hcall. simpl.
    unfold wrapper. rewrite Hcall. simpl. by case_match.
  - by intros -> ->.
Qed.

Lemma comp_unfold rt (self : PolarsDataset Obj K) other op :
  _comp h rt self other op
  = (f ← __getattr__ h rt self (comp_route other); rt_call rt f [other; op] []).
Proof.
  unfold _comp, comp_route.
  destruct (isinstance_PolarsDataset other);
    by rewrite getattribute_missing.
Qed.

Lemma compare_unfold rt c (self : PolarsDataset Obj K) other :
  compare h rt c self other
  = _comp h rt self other (VStr (comparison_name c)).
Proof. by destruct c. Qed.

Lemma comp_returns n (self : PolarsDataset Obj K) other op f result :
  rt_getattr (py n) (data self) (comp_route other) = Ok f →
  isinstance h f DataFrameLikeClasses = false →
  callable h f = true →
  rt_call (py n) f [other; op] [] = Ok result →
  isinstance h result DataFrameLikeClasses = true →
  _comp h (py (S n)) self other op = Ok (rewrap self result).
Proof.
  intros Hf Hnd Hc Hcall Hres.
  rewrite comp_unfold. unfold __getattr__.
  rewrite (getattr_deeper _ _ _ _ Hf). simpl. rewrite Hnd, Hc. simpl.
  unfold wrapper. rewrite Hcall. simpl. by rewrite Hres.
Qed.

(** C2 (amended).  For each of the six comparison operators, the payload's
    routine of the route ([_compare_to_other_df] when the right-hand operand
    is a proxy, [_compare_to_non_df] otherwise) is invoked with the
    right-hand operand exactly as it was given, a proxy operand being passed
    as the proxy itself and not as its payload, and with the name of the
    comparison; its container result comes back wrapped in a new proxy that
    carries the metadata of the left proxy. *)
Theorem comparison_passes_operand c n (self : PolarsDataset Obj K) other f result :
  rt_getattr (py n) (data self) (comp_route other) = Ok f →
  isinstance h f DataFrameLikeClasses = false →
  callable h f = true →
  rt_call (py n) f [other; VStr (comparison_name c)] [] = Ok result →
  isinstance h result DataFrameLikeClasses = true →
  compare h (py (S n)) c self other = Ok (rewrap self result).
Proof. rewrite compare_unfold. apply comp_returns. Qed.

(** C4 (amended).  [<=] runs the comparison named [lt_eq] and [>=] the one
    named [gt_eq]: for two proxies [a] and [b], [a <= b] is the new proxy,
    with the metadata of [a], around the container that the routine
    [_compare_to_other_df] of [a]'s payload returns for [b] itself and the
    name [lt_eq]; [a >= b] is the same with the name [gt_eq]; and the two
    differ whenever those two containers differ. *)
Theorem le_is_lt_eq_ge_is_gt_eq n (a b : PolarsDataset Obj K) f r_le r_ge :
  rt_getattr (py n) (data a) "_compare_to_other_df" = Ok f →
  isinstance h f DataFrameLikeClasses = false →
  callable h f = true →
  rt_call (py n) f [VDataset b; VStr "lt_eq"] [] = Ok r_le →
  rt_call (py n) f [VDataset b; VStr "gt_eq"] [] = Ok r_ge →
  isinstance h r_le DataFrameLikeClasses = true →
  isinstance h r_ge DataFrameLikeClasses = true →
  __le__ h (py (S n)) a (VDataset b) = Ok (rewrap a r_le)
  ∧ __ge__ h (py (S n)) a (VDataset b) = Ok (rewrap a r_ge)
  ∧ (r_le ≠ r_ge →
     __le__ h (py (S n)) a (VDataset b) ≠ __ge__ h (py (S n)) a (VDataset b)).
Proof.
  intros Hf Hnd Hc Hle Hge Htle Htge.
  pose proof (comp_returns n a (VDataset b) _ f r_le Hf Hnd Hc Hle Htle) as Ele.
  pose proof (comp_returns n a (VDataset b) _ f r_ge Hf Hnd Hc Hge Htge) as Ege.
  fold (__le__ h (py (S n)) a (VDataset b)) in Ele.
  fold (__ge__ h (py (S n)) a (VDataset b)) in Ege.
  repeat split; [done..|].
  intros Hne. rewrite Ele, Ege. intros [= ?]. by apply Hne.
Qed.

(** C10.  The class binds neither [_compare_to_other_df] nor
    [_compare_to_non_df], so the dispatcher resolves them through
    [__getattr__]; when the payload lacks the routine of the route, every
    comparison operator raises [AttributeError] and no comparison takes
    place. *)
Theorem comparison_without_routine c n (self : PolarsDataset Obj K) other :
  rt_getattr (py n) (data self) (comp_route other) = Raise AttributeError →
  found_by_lookup "_compare_to_other_df" = false
  ∧ found_by_lookup "_compare_to_non_df" = false
  ∧ _comp h (py n) self other (VStr (comparison_name c))
    = __getattr__ h (py n) self (comp_route other)
  ∧ compare h (py n) c self other = Raise AttributeError.
Proof.
  intros Hlack. repeat split; try done.
  - rewrite comp_unfold. unfold __getattr__. by rewrite Hlack.
  - rewrite compare_unfold, comp_unfold. unfold __getattr__. by rewrite Hlack.
Qed.

Lemma arithmetic_unfold rt a (self : PolarsDataset Obj K) other :
  arithmetic h rt a self other
  = _apply_op h rt self other (arithmetic_name a) [] [].
Proof. by destruct a. Qed.

Lemma arithmetic_bound_method rt rt' a (self : PolarsDataset Obj K) x :
  (f ← getattribute h rt' self (arithmetic_name a);
   rt_call (step h rt) f [x] [])
  = arithmetic h rt a self x.
Proof. by destruct a. Qed.

Lemma arithmetic_unwraps a n (self o : PolarsDataset Obj K) :
  arithmetic h (py (S n)) a self (VDataset o)
  = arithmetic h (py n) a self (data o).
Proof.
  rewrite (arithmetic_unfold (py (S n))). unfold _apply_op.
  apply (arithmetic_bound_method (py n)).
Qed.

Lemma arithmetic_metadata a n (self : PolarsDataset Obj K) other v :
  arithmetic h (py n) a self other = Ok v →
  ∃ d, v = rewrap self d.
Proof.
  revert other. induction n as [|n IH]; intros other.
  - rewrite arithmetic_unfold. unfold _apply_op.
    destruct other; simpl; try done.
    by destruct (getattribute h exhausted self (arithmetic_name a)).
  - destruct other as [| | | | |o| |].
    6: { rewrite arithmetic_unwraps. apply IH. }
    all: rewrite arithmetic_unfold; unfold _apply_op.
    all: repeat match goal with
         | |- (?c ≫= _) = Ok _ → _ => destruct c; simpl; [|done]
         end.
    all: intros [= <-]; by eexists.
Qed.

(** C3.  For each of the eight arithmetic operators: applied to a proxy on
    the right, the operation is the operation applied to that proxy's
    payload in its place; applied to anything else, the payload's method is
    called with the operand as it is and its result becomes the payload of a
    new proxy; and whatever the operand, a result is a proxy whose metadata
    is that of [self]. *)
Theorem arithmetic_rewraps a n (self : PolarsDataset Obj K) :
  (∀ o : PolarsDataset Obj K,
     arithmetic h (py (S n)) a self (VDataset o)
     = arithmetic h (py n) a self (data o))
  ∧ (∀ other f new_data,
       isinstance_PolarsDataset other = false →
       rt_getattr (py n) (data self) (arithmetic_name a) = Ok f →
       rt_call (py n) f [other] [] = Ok new_data →
       arithmetic h (py n) a self other = Ok (rewrap self new_data))
  ∧ (∀ other v,
       arithmetic h (py n) a self other = Ok v →
       ∃ d, v = rewrap self d).
Proof.
  split; [|split].
  - apply arithmetic_unwraps.
  - intros other f new_data Hother Hf Hcall.
    rewrite arithmetic_unfold. unfold _apply_op.
    destruct other; try done; by rewrite Hf; simpl; rewrite Hcall.
  - apply arithmetic_metadata.
Qed.

(** C5.  When the payload's [partition_by] returns a list, the proxy
    returns a list of the same length whose element at each position is a
    new proxy around the container at that position, with the metadata of
    [self]; when it returns a dict, the proxy returns a dict with the same
    keys whose value at each key is a new proxy around the container at that
    key, with the metadata of [self]. *)
Theorem partition_by_keeps_shape n (self : PolarsDataset Obj K) args kw f :
  rt_getattr (py n) (data self) "partition_by" = Ok f →
  (∀ l, rt_call (py n) f args kw = Ok (VList l) →
     ∃ ps, partition_by (py n) self args kw = Ok (VList ps)
       ∧ length ps = length l
       ∧ ∀ i, ps !! i = (λ c, rewrap self c) <$> l !! i)
  ∧ (∀ d, rt_call (py n) f args kw = Ok (VDict d) →
       ∃ pd, partition_by (py n) self args kw = Ok (VDict pd)
         ∧ dom pd = dom d
         ∧ ∀ k, pd !! k = (λ c, rewrap self c) <$> d !! k).
Proof.
  intros Hf. unfold partition_by. rewrite Hf. simpl. split.
  - intros l ->. simpl. eexists. split; [done|]. split.
    + by rewrite length_map.
    + intros i. by rewrite list_lookup_fmap.
  - intros d ->. simpl. eexists. split; [done|].
    assert (list_to_map
              (map (λ '(name, new_data),
                 (name, VDataset (dataclasses_replace self (Some new_data))))
                 (map_to_list d))
            = ((λ c, rewrap self c) <$> d)) as ->.
    { rewrite <- (list_to_map_to_list ((λ c, rewrap self c) <$> d)).
      rewrite map_to_list_fmap. unfold prod_map. simpl.
      f_equal. apply map_ext. by intros []. }
    split.
    + by rewrite dom_fmap_L.
    + intros k. by rewrite lookup_fmap.
Qed.

(** C6.  When the payload's [partition_by] returns something that is
    neither a list nor a dict, the proxy's [partition_by] returns nothing
    and raises the [AssertionError] of its [assert False]. *)
Theorem partition_by_unknown_shape n (self : PolarsDataset Obj K) args kw f result :
  rt_getattr (py n) (data self) "partition_by" = Ok f →
  rt_call (py n) f args kw = Ok result →
  isinstance_list result = false →
  isinstance_dict result = false →
  partition_by (py n) self args kw
  = Raise (AssertionError "Unknown return type from ``partition_by``").
Proof.
  intros Hf Hcall Hl Hd. unfold partition_by. rewrite Hf. simpl.
  rewrite Hcall. simpl. by destruct result.
Qed.

Lemma generate_data n (items : list (PolarsDataset Obj K)) :
  generate (λ item, rt_getattr (py (S n)) item "data") (map VDataset items)
  = (map data items, None).
Proof.
  induction items as [|p items IH]; [done|].
  cbn [map generate]. rewrite IH. done.
Qed.

(** C7.  [concat(items, base, **kwargs)] over proxies returns one new proxy
    whose payload is what [pl.concat] makes of the items' payloads, in
    order, with the keyword arguments passed on as they are, and whose
    metadata is that of [base], whatever the metadata of the items. *)
Theorem concat_takes_base_metadata n (items : list (PolarsDataset Obj K))
    (base : PolarsDataset Obj K) kw new_data :
  pl_concat h (map data items) kw = Ok new_data →
  concat h (py (S n)) (map VDataset items) base kw
  = Ok (rewrap base new_data).
Proof.
  intros Hc. unfold concat. rewrite generate_data. simpl. by rewrite Hc.
Qed.

(** C8.  [proxy[key]] goes the way of a delegated method: it is the call of
    the wrapper that attribute delegation builds around the payload's
    [__getitem__], so a tabular-family result comes back in a new proxy with
    the metadata of [self] and any other result comes back unchanged.
    Iteration, reversal, truth value and length hand back what the payload's
    own protocol method returns, tabular-family or not. *)
Theorem getitem_rewraps_protocols_pass n (self : PolarsDataset Obj K) :
  (∀ key f result,
     rt_getattr (py n) (data self) "__getitem__" = Ok f →
     rt_call (py n) f [key] [] = Ok result →
     __getitem__ h (py n) self key
     = Ok (if isinstance h result DataFrameLikeClasses
           then rewrap self result else result))
  ∧ (∀ key f,
       rt_getattr (py n) (data self) "__getitem__" = Ok f →
       rt_call (py (S n)) (_wrap_method self f) [key] []
       = __getitem__ h (py n) self key)
  ∧ (∀ f result,
       rt_getattr (py n) (data self) "__iter__" = Ok f →
       rt_call (py n) f [] [] = Ok result →
       __iter__ (py n) self = Ok result)
  ∧ (∀ f result,
       rt_getattr (py n) (data self) "__reversed__" = Ok f →
       rt_call (py n) f [] [] = Ok result →
       __reversed__ (py n) self = Ok result)
  ∧ (∀ f result,
       rt_getattr (py n) (data self) "__bool__" = Ok f →
       rt_call (py n) f [] [] = Ok result →
       __bool__ (py n) self = Ok result)
  ∧ (∀ result,
       rt_len (py n) (data self) = Ok result →
       __len__ (py n) self = Ok result).
Proof.
  repeat split.
  - intros key f result Hf Hcall. unfold __getitem__, wrapper.
    rewrite Hf. simpl. rewrite Hcall. simpl. by case_match.
  - intros key f Hf. unfold __getitem__. by rewrite Hf.
  - intros f result Hf Hcall. unfold __iter__. by rewrite Hf.
  - intros f result Hf Hcall. unfold __reversed__. by rewrite Hf.
  - intros f result Hf Hcall. unfold __bool__. by rewrite Hf.
  - done.
Qed.

(** C9.  Capturing the state of a proxy for serialization raises
    [NotImplementedError], whatever its payload and metadata: the method
    does, and so does the call of the bound method that attribute access
    returns. *)
Theorem getstate_not_implemented (self : PolarsDataset Obj K) :
  __getstate__ self = Raise NotImplementedError
  ∧ ∀ n, (m ← rt_getattr (py (S n)) (VDataset self) "__getstate__";
          rt_call (py (S n)) m [] [])
         = Raise NotImplementedError.
Proof. split; [done|]. by intros n. Qed.

End Properties.

(** ** The class on concrete inputs *)

Section Runs.
Import Toy.
Local Open Scope Z_scope.

(** A run of C1: [head] is not a name of the class, the payload answers
    with a bound method, and the wrapper re-wraps the table it returns. *)
Lemma getattr_delegates_witness :
  found_by_lookup "head" = false
  ∧ rt_getattr (python polars 1) (data (dataset [1; 2; 3])) "head"
    = Ok (VObj (Method (Frame [1; 2; 3]) "head"))
  ∧ ∃ w, __getattr__ polars (python polars 1) (dataset [1; 2; 3]) "head" = Ok w
      ∧ rt_call (python polars 2) w [VInt 2] []
        = Ok (VDataset (dataset [1; 2])).
Proof.
  split; [reflexivity|]. split; [reflexivity|].
  destruct (getattr_delegates polars 1 (dataset [1; 2; 3]) "head" _
              eq_refl eq_refl) as (_ & _ & Hb & _).
  destruct (Hb eq_refl eq_refl) as (w & Hw & Hcall).
  exists w. split; [exact Hw|].
  exact (Hcall 1%nat [VInt 2] [] _ eq_refl).
Defined.

(** A run of C2 (amended) with the duck-typed comparison. *)
Lemma comparison_passes_operand_witness :
  rt_getattr (python polars 1) (data (tagged [1; 2] "X"))
    (comp_route (VDataset (tagged [1; 3] "Y")))
  = Ok (VObj (Method (Frame [1; 2]) "_compare_to_other_df"))
  ∧ rt_call (python polars 1)
      (VObj (Method (Frame [1; 2]) "_compare_to_other_df"))
      [VDataset (tagged [1; 3] "Y"); VStr (comparison_name op_eq)] []
    = Ok (VObj (Frame [1; 0]))
  ∧ compare polars (python polars 2) op_eq (tagged [1; 2] "X")
      (VDataset (tagged [1; 3] "Y"))
    = Ok (VDataset (tagged [1; 0] "X")).
Proof.
  split; [reflexivity|]. split; [reflexivity|].
  exact (comparison_passes_operand polars op_eq 1 (tagged [1; 2] "X")
           (VDataset (tagged [1; 3] "Y")) _ _
           eq_refl eq_refl eq_refl eq_refl eq_refl).
Defined.

(** C2 as stated fails: the strict comparison is handed the proxy, not
    its table, and raises, whereas the comparison against the payload
    returns a table. *)
Lemma comparison_counterexample :
  ¬ compares_against_payload strict_polars 2 op_eq
      (tagged [1; 2] "X") (VDataset (tagged [1; 3] "Y")).
Proof. unfold compares_against_payload. vm_compute. discriminate. Qed.

(** A run of C3: a proxy plus an integer. *)
Lemma arithmetic_rewraps_witness :
  rt_getattr (python polars 1) (data (tagged [1; 2] "X")) (arithmetic_name op_add)
  = Ok (VObj (Method (Frame [1; 2]) "__add__"))
  ∧ rt_call (python polars 1) (VObj (Method (Frame [1; 2]) "__add__")) [VInt 5] []
    = Ok (VObj (Frame [6; 7]))
  ∧ arithmetic polars (python polars 1) op_add (tagged [1; 2] "X") (VInt 5)
    = Ok (VDataset (tagged [6; 7] "X")).
Proof.
  split; [reflexivity|]. split; [reflexivity|].
  destruct (arithmetic_rewraps polars op_add 1 (tagged [1; 2] "X"))
    as (_ & Hplain & _).
  exact (Hplain (VInt 5) _ _ eq_refl eq_refl eq_refl).
Defined.

(** A run of C4 (amended) with the duck-typed comparison. *)
Lemma le_is_lt_eq_ge_is_gt_eq_witness :
  rt_call (python polars 1)
    (VObj (Method (Frame [1; 2]) "_compare_to_other_df"))
    [VDataset (tagged [2; 1] "Y"); VStr "lt_eq"] []
  = Ok (VObj (Frame [1; 0]))
  ∧ rt_call (python polars 1)
      (VObj (Method (Frame [1; 2]) "_compare_to_other_df"))
      [VDataset (tagged [2; 1] "Y"); VStr "gt_eq"] []
    = Ok (VObj (Frame [0; 1]))
  ∧ __le__ polars (python polars 2) (tagged [1; 2] "X")
      (VDataset (tagged [2; 1] "Y"))
    = Ok (VDataset (tagged [1; 0] "X"))
  ∧ __ge__ polars (python polars 2) (tagged [1; 2] "X")
      (VDataset (tagged [2; 1] "Y"))
    = Ok (VDataset (tagged [0; 1] "X")).
Proof.
  split; [reflexivity|]. split; [reflexivity|].
  destruct (le_is_lt_eq_ge_is_gt_eq polars 1 (tagged [1; 2] "X")
              (tagged [2; 1] "Y") _ _ _
              eq_refl eq_refl eq_refl eq_refl eq_refl eq_refl eq_refl)
    as (Hle & Hge & _).
  split; [exact Hle|exact Hge].
Defined.

(** C4 as stated fails twice: with the strict comparison [a <= b] is not
    the wrapped [lt_eq] of the payloads, and on equal payloads [a <= b]
    is the wrapped [gt_eq] of the payloads. *)
Lemma le_counterexample :
  ¬ le_as_specified strict_polars 2 (tagged [1; 2] "X") (tagged [2; 1] "Y")
  ∧ ¬ le_as_specified polars 2 (tagged [1; 2] "X") (tagged [1; 2] "Y").
Proof.
  unfold le_as_specified. split.
  - intros [Heq _]. vm_compute in Heq. discriminate.
  - intros [_ Hne]. apply Hne. vm_compute. reflexivity.
Qed.

(** A run of C5, in both shapes. *)
Lemma partition_by_keeps_shape_witness :
  rt_getattr (python polars 1) (data (tagged [4; 5] "X")) "partition_by"
  = Ok (VObj (Method (Frame [4; 5]) "partition_by"))
  ∧ partition_by (python polars 1) (tagged [4; 5] "X") [] []
    = Ok (VList [VDataset (tagged [4] "X"); VDataset (tagged [5] "X")])
  ∧ ∃ pd, partition_by (python polars 1) (tagged [4; 5] "X") []
            [("as_dict", VInt 1)] = Ok (VDict pd)
      ∧ pd !! 4 = Some (VDataset (tagged [4] "X"))
      ∧ pd !! 5 = Some (VDataset (tagged [5] "X"))
      ∧ pd !! 6 = None.
Proof.
  split; [reflexivity|].
  split.
  - destruct (partition_by_keeps_shape polars 1 (tagged [4; 5] "X") [] [] _
                eq_refl) as (Hlist & _).
    destruct (Hlist _ eq_refl) as (ps & Hps & Hlen & Hat).
    rewrite Hps. f_equal. f_equal.
    destruct ps as [|p0 [|p1 [|p2 ps]]]; try discriminate Hlen.
    pose proof (Hat 0%nat) as H0. pose proof (Hat 1%nat) as H1.
    simpl in H0, H1. by injection H0 as ->; injection H1 as ->.
  - destruct (partition_by_keeps_shape polars 1 (tagged [4; 5] "X") []
                [("as_dict", VInt 1)] _ eq_refl) as (_ & Hdict).
    destruct (Hdict _ eq_refl) as (pd & Hpd & _ & Hat).
    exists pd. split; [exact Hpd|].
    rewrite !Hat. repeat split; reflexivity.
Defined.

(** A run of C6: a payload whose [partition_by] answers with an integer. *)
Lemma partition_by_unknown_shape_witness :
  rt_getattr (python polars 1) (VObj Broken) "partition_by"
  = Ok (VObj (Method Broken "partition_by"))
  ∧ rt_call (python polars 1) (VObj (Method Broken "partition_by")) [] []
    = Ok (VInt 0)
  ∧ partition_by (python polars 1) (mkPolarsDataset (VObj Broken) (VStr "X")) [] []
    = Raise (AssertionError "Unknown return type from ``partition_by``").
Proof.
  split; [reflexivity|]. split; [reflexivity|].
  exact (partition_by_unknown_shape polars 1
           (mkPolarsDataset (VObj Broken) (VStr "X")) [] [] _ _
           eq_refl eq_refl eq_refl eq_refl).
Defined.

(** A run of C7: the metadata of the items is dropped, that of [base]
    kept. *)
Lemma concat_takes_base_metadata_witness :
  pl_concat polars (map data [tagged [1; 2] "A"; tagged [3] "B"]) []
  = Ok (VObj (Frame [1; 2; 3]))
  ∧ concat polars (python polars 1)
      (map VDataset [tagged [1; 2] "A"; tagged [3] "B"]) (tagged [] "X") []
    = Ok (VDataset (tagged [1; 2; 3] "X")).
Proof.
  split; [reflexivity|].
  exact (concat_takes_base_metadata polars 0
           [tagged [1; 2] "A"; tagged [3] "B"] (tagged [] "X") [] _ eq_refl).
Defined.

(** A run of C8: indexing by a column name re-wraps, indexing by a row
    number does not, and the protocols pass through. *)
Lemma getitem_rewraps_protocols_pass_witness :
  __getitem__ polars (python polars 1) (tagged [7; 8] "X") (VStr "column")
  = Ok (VDataset (tagged [7; 8] "X"))
  ∧ __getitem__ polars (python polars 1) (tagged [7; 8] "X") (VInt 1)
    = Ok (VInt 8 : val)
  ∧ __iter__ (python polars 1) (tagged [7; 8] "X")
    = Ok (VList [VInt 7; VInt 8])
  ∧ __reversed__ (python polars 1) (tagged [7; 8] "X")
    = Ok (VList [VInt 8; VInt 7])
  ∧ __len__ (python polars 1) (tagged [7; 8] "X") = Ok (VInt 2 : val).
Proof.
  destruct (getitem_rewraps_protocols_pass polars 1 (tagged [7; 8] "X"))
    as (Hitem & _ & Hiter & Hrev & _ & Hlen).
  split; [exact (Hitem (VStr "column") _ _ eq_refl eq_refl)|].
  split; [exact (Hitem (VInt 1) _ _ eq_refl eq_refl)|].
  split; [exact (Hiter _ _ eq_refl eq_refl)|].
  split; [exact (Hrev _ _ eq_refl eq_refl)|].
  exact (Hlen _ eq_refl).
Defined.

(** A run of C10: a grouped view has no comparison routine. *)
Lemma comparison_without_routine_witness :
  rt_getattr (python polars 1) (VObj (Grouped [1])) (comp_route (VInt 3 : val))
  = Raise AttributeError
  ∧ compare polars (python polars 1) op_lt
      (mkPolarsDataset (VObj (Grouped [1])) (VStr "X")) (VInt 3)
    = Raise AttributeError.
Proof.
  split; [reflexivity|].
  destruct (comparison_without_routine polars op_lt 1
              (mkPolarsDataset (VObj (Grouped [1])) (VStr "X")) (VInt 3)
              eq_refl) as (_ & _ & _ & Hraise).
  exact Hraise.
Defined.

End Runs.

(** ** Further properties of the class *)

Section Further.
Context {Obj K : Type} `{Countable K}.
Context (h : host Obj K).
Abbreviation py := (python h).
Abbreviation rewrap self v :=
  (VDataset (mkPolarsDataset v (extra_attr self)) : value Obj K).

Lemma isinstance_rewrap (self : PolarsDataset Obj K) v classes :
  isinstance h (rewrap self v) classes = false.
Proof. done. Qed.

(** X1.  Delegation never hands a bare container to the caller: whatever
    attribute delegation, a call of the wrapper, or indexing returns is not
    an instance of one of the tabular-family classes. *)
Theorem delegation_never_leaks rt (self : PolarsDataset Obj K) :
  (∀ name v, __getattr__ h rt self name = Ok v →
     isinstance h v DataFrameLikeClasses = false)
  ∧ (∀ f args kw v, wrapper h rt self f args kw = Ok v →
       isinstance h v DataFrameLikeClasses = false)
  ∧ (∀ key v, __getitem__ h rt self key = Ok v →
       isinstance h v DataFrameLikeClasses = false).
Proof.
  assert (∀ f args kw v, wrapper h rt self f args kw = Ok v →
            isinstance h v DataFrameLikeClasses = false) as Hwrap.
  { intros f args kw v. unfold wrapper.
    destruct (rt_call rt f args kw) as [r|]; [|done]. simpl.
    destruct (isinstance h r DataFrameLikeClasses) eqn:Hr;
      intros [= <-]; done. }
  repeat split; [|done|].
  - intros name v. unfold __getattr__.
    destruct (rt_getattr rt (data self) name) as [attr|]; [|done]. simpl.
    destruct (isinstance h attr DataFrameLikeClasses) eqn:Ha;
      [by intros [= <-]|].
    destruct (callable h attr); by intros [= <-].
  - intros key v. unfold __getitem__.
    destruct (rt_getattr rt (data self) "__getitem__") as [f|]; [|done].
    apply Hwrap.
Qed.

Lemma join_bound_method rt rt' (self : PolarsDataset Obj K) x args kw :
  assoc "self" kw = None →
  assoc "other" kw = None →
  (f ← getattribute h rt' self "join"; rt_call (step h rt) f (x :: args) kw)
  = join h rt self x args kw
  ∧ (f ← getattribute h rt' self "join_asof";
     rt_call (step h rt) f (x :: args) kw)
    = join_asof h rt self x args kw.
Proof.
  intros Hself Hkw. split; simpl; unfold call_method, bind_args; simpl;
    by rewrite Hself, Hkw.
Qed.

Lemma call_apply_op_unfold rt (self : PolarsDataset Obj K) other op args kw :
  call_apply_op h rt self (other :: VStr op :: args) kw
  = match assoc "self" kw, assoc "_PolarsDataset__other" kw,
          assoc "_PolarsDataset__op" kw with
    | None, None, None => _apply_op h rt self other op args kw
    | _, _, _ => Raise TypeError
    end.
Proof.
  unfold call_apply_op, bind_args. cbn [bind_named].
  destruct (assoc "self" kw); [done|].
  destruct (assoc "_PolarsDataset__other" kw); [done|].
  by destruct (assoc "_PolarsDataset__op" kw).
Qed.

Lemma call_apply_op_binds rt (self : PolarsDataset Obj K) other op args kw :
  assoc "self" kw = None →
  assoc "_PolarsDataset__other" kw = None →
  assoc "_PolarsDataset__op" kw = None →
  call_apply_op h rt self (other :: VStr op :: args) kw
  = _apply_op h rt self other op args kw.
Proof. intros Hs Ho Hop. by rewrite call_apply_op_unfold, Hs, Ho, Hop. Qed.

(** X3.  [join] and [join_asof] hand their operand, their own name and the
    further arguments to [_apply_op].  A keyword argument that names one of
    the parameters of [_apply_op] ([self] and the two mangled ones)
    collides there and the call raises [TypeError] before the payload is
    touched.  With no such keyword:
    a proxy on the right is joined against that proxy's payload, with the
    further positional and keyword arguments passed on unchanged; with
    anything else on the right the payload's method is called with the
    operand and those arguments as they are, and its result becomes the
    payload of a new proxy with the metadata of [self]. *)
Theorem join_unwraps_and_rewraps n (self : PolarsDataset Obj K) args kw :
  (is_Some (assoc "self" kw)
   ∨ is_Some (assoc "_PolarsDataset__other" kw)
   ∨ is_Some (assoc "_PolarsDataset__op" kw) →
   ∀ other,
     join h (py n) self other args kw = Raise TypeError
     ∧ join_asof h (py n) self other args kw = Raise TypeError)
  ∧ (assoc "self" kw = None →
     assoc "_PolarsDataset__other" kw = None →
     assoc "_PolarsDataset__op" kw = None →
     (∀ o : PolarsDataset Obj K,
        assoc "other" kw = None →
        join h (py (S n)) self (VDataset o) args kw
        = join h (py n) self (data o) args kw
        ∧ join_asof h (py (S n)) self (VDataset o) args kw
          = join_asof h (py n) self (data o) args kw)
     ∧ (∀ other f new_data,
          isinstance_PolarsDataset other = false →
          (rt_getattr (py n) (data self) "join" = Ok f →
           rt_call (py n) f (other :: args) kw = Ok new_data →
           join h (py n) self other args kw = Ok (rewrap self new_data))
          ∧ (rt_getattr (py n) (data self) "join_asof" = Ok f →
             rt_call (py n) f (other :: args) kw = Ok new_data →
             join_asof h (py n) self other args kw
             = Ok (rewrap self new_data)))).
Proof.
  split.
  - intros Hcollide other. unfold join, join_asof.
    rewrite !call_apply_op_unfold.
    destruct Hcollide as [[v ->]|[[v ->]|[v ->]]]; [done| |].
    + by destruct (assoc "self" kw).
    + by destruct (assoc "self" kw), (assoc "_PolarsDataset__other" kw).
  - intros Hs Ho Hop. split.
    + intros o Hkw.
      destruct (join_bound_method (py n) (py (S n)) self (data o) args kw
                  Hs Hkw) as [Hj Ha].
      rewrite <- Hj, <- Ha. unfold join, join_asof.
      by rewrite !call_apply_op_binds.
    + intros other f new_data Hother. unfold join, join_asof.
      rewrite !call_apply_op_binds by done. unfold _apply_op.
      split; intros Hf Hcall;
        destruct other; try done; by rewrite Hf; simpl; rewrite Hcall.
Qed.

(** X4.  A comparison is wrapped only when it is a container: when the
    payload's routine returns a value that is not tabular-family, the
    comparison operator returns that value itself, not a proxy. *)
Theorem comparison_returns_other_results_bare c n (self : PolarsDataset Obj K)
    other f result :
  rt_getattr (py n) (data self) (comp_route other) = Ok f →
  isinstance h f DataFrameLikeClasses = false →
  callable h f = true →
  rt_call (py n) f [other; VStr (comparison_name c)] [] = Ok result →
  isinstance h result DataFrameLikeClasses = false →
  compare h (py (S n)) c self other = Ok result.
Proof.
  intros Hf Hnd Hc Hcall Hres.
  rewrite compare_unfold, comp_unfold. unfold __getattr__.
  rewrite (getattr_deeper _ _ _ _ _ Hf). simpl. rewrite Hnd, Hc. simpl.
  unfold wrapper. rewrite Hcall. simpl. by rewrite Hres.
Qed.

(** X5.  Delegation lets every failure of the payload through as it is:
    a failed lookup on the payload is the outcome of the attribute access
    on the proxy, a failure of the wrapped callable is the outcome of the
    call of the wrapper, and a failure of the payload's [__getitem__] is the
    outcome of indexing. *)
Theorem delegation_propagates_failures n (self : PolarsDataset Obj K) e :
  (∀ name,
     found_by_lookup name = false →
     rt_getattr (py n) (data self) name = Raise e →
     rt_getattr (py (S n)) (VDataset self) name = Raise e)
  ∧ (∀ f args kw,
       rt_call (py n) f args kw = Raise e →
       rt_call (py (S n)) (_wrap_method self f) args kw = Raise e)
  ∧ (∀ key f,
       rt_getattr (py n) (data self) "__getitem__" = Ok f →
       rt_call (py n) f [key] [] = Raise e →
       __getitem__ h (py n) self key = Raise e).
Proof.
  repeat split.
  - intros name Hmiss Hfail. simpl. rewrite getattribute_missing by done.
    unfold __getattr__. by rewrite Hfail.
  - intros f args kw Hfail. simpl. unfold wrapper. by rewrite Hfail.
  - intros key f Hf Hfail. unfold __getitem__, wrapper. rewrite Hf. simpl.
    by rewrite Hfail.
Qed.

(** X6.  The operators and [partition_by] let every failure of the payload
    through as it is: when the payload lacks the method, or the method
    fails, an arithmetic operator, [join] (called with no keyword that
    collides with a parameter of [_apply_op]) and [partition_by] fail with
    the same exception, and so does a comparison whose routine fails.  In
    particular [partition_by] raises its own [AssertionError] only for a
    result of the wrong shape. *)
Theorem operators_propagate_failures n (self : PolarsDataset Obj K) e :
  (∀ a other,
     isinstance_PolarsDataset other = false →
     (rt_getattr (py n) (data self) (arithmetic_name a) = Raise e →
      arithmetic h (py n) a self other = Raise e)
     ∧ (∀ f, rt_getattr (py n) (data self) (arithmetic_name a) = Ok f →
          rt_call (py n) f [other] [] = Raise e →
          arithmetic h (py n) a self other = Raise e))
  ∧ (∀ other args kw,
       isinstance_PolarsDataset other = false →
       assoc "self" kw = None →
       assoc "_PolarsDataset__other" kw = None →
       assoc "_PolarsDataset__op" kw = None →
       (rt_getattr (py n) (data self) "join" = Raise e →
        join h (py n) self other args kw = Raise e)
       ∧ (∀ f, rt_getattr (py n) (data self) "join" = Ok f →
            rt_call (py n) f (other :: args) kw = Raise e →
            join h (py n) self other args kw = Raise e))
  ∧ (∀ args kw,
       (rt_getattr (py n) (data self) "partition_by" = Raise e →
        partition_by (py n) self args kw = Raise e)
       ∧ (∀ f, rt_getattr (py n) (data self) "partition_by" = Ok f →
            rt_call (py n) f args kw = Raise e →
            partition_by (py n) self args kw = Raise e))
  ∧ (∀ c other f,
       rt_getattr (py n) (data self) (comp_route other) = Ok f →
       isinstance h f DataFrameLikeClasses = false →
       callable h f = true →
       rt_call (py n) f [other; VStr (comparison_name c)] [] = Raise e →
       compare h (py (S n)) c self other = Raise e).
Proof.
  split; [|split; [|split]].
  - intros a other Hother. rewrite arithmetic_unfold. unfold _apply_op.
    split; [intros Hfail|intros f Hf Hfail];
      destruct other; try done.
    all: first [ by rewrite Hfail | by rewrite Hf; simpl; rewrite Hfail ].
  - intros other args kw Hother Hs Ho Hop. unfold join.
    rewrite call_apply_op_binds by done. unfold _apply_op.
    split; [intros Hfail|intros f Hf Hfail];
      destruct other; try done.
    all: first [ by rewrite Hfail | by rewrite Hf; simpl; rewrite Hfail ].
  - intros args kw. unfold partition_by.
    split; [intros Hfail|intros f Hf Hfail].
    + by rewrite Hfail.
    + rewrite Hf. simpl. by rewrite Hfail.
  - intros c other f Hf Hnd Hc Hfail.
    rewrite compare_unfold, comp_unfold. unfold __getattr__.
    rewrite (getattr_deeper _ _ _ _ _ Hf). simpl. rewrite Hnd, Hc. simpl.
    unfold wrapper. by rewrite Hfail.
Qed.

(** X7.  [concat] takes nothing but the metadata from [base] and nothing
    but the payloads from the items: two bases with the same metadata, and
    two sequences of proxies with the same payloads, give the same
    outcome. *)
Theorem concat_uses_payloads_and_base_metadata n
    (items1 items2 : list (PolarsDataset Obj K))
    (base1 base2 : PolarsDataset Obj K) kw :
  map data items1 = map data items2 →
  extra_attr base1 = extra_attr base2 →
  concat h (py (S n)) (map VDataset items1) base1 kw
  = concat h (py (S n)) (map VDataset items2) base2 kw.
Proof.
  intros Hitems Hbase. unfold concat. rewrite !generate_data. simpl.
  rewrite Hitems. destruct (pl_concat h (map data items2) kw); [|done].
  simpl. unfold dataclasses_replace. simpl. by rewrite Hbase.
Qed.



(** X9.  Metadata survives a chain across the two mechanisms: the result of
    an arithmetic operator is a proxy with the metadata of [self], and a
    delegated method called on that result, when it returns a container,
    returns it in a proxy that still carries the metadata of [self]. *)
Theorem metadata_survives_arithmetic_then_method a n (self : PolarsDataset Obj K)
    other v :
  arithmetic h (py n) a self other = Ok v →
  ∃ p : PolarsDataset Obj K,
    v = VDataset p ∧ extra_attr p = extra_attr self
    ∧ ∀ m name attr args kw result,
        rt_getattr (py m) (data p) name = Ok attr →
        isinstance h attr DataFrameLikeClasses = false →
        callable h attr = true →
        rt_call (py m) attr args kw = Ok result →
        isinstance h result DataFrameLikeClasses = true →
        (w ← __getattr__ h (py m) p name; rt_call (py (S m)) w args kw)
        = Ok (rewrap self result).
Proof.
  intros Hv. destruct (arithmetic_metadata h a n self other v Hv) as [d ->].
  eexists. split; [done|]. split; [done|].
  intros m name attr args kw result Hattr Hnd Hc Hcall Hres.
  unfold __getattr__. rewrite Hattr. simpl. rewrite Hnd, Hc. simpl.
  unfold wrapper. rewrite Hcall. simpl. by rewrite Hres.
Qed.

(** X10.  An operand wrapped in any number of proxies is unwrapped down to
    the innermost payload, one level of calls per proxy: the operator on
    the nested operand at a limit raised by the number of proxies is the
    operator on the innermost payload. *)
Theorem arithmetic_unwraps_every_layer a n (self : PolarsDataset Obj K)
    (metas : list (value Obj K)) d :
  arithmetic h (py (length metas + n)) a self (nested metas d)
  = arithmetic h (py n) a self d.
Proof.
  induction metas as [|e metas IH]; [done|].
  cbn [length nested Nat.add]. by rewrite arithmetic_unwraps.
Qed.

(** X12.  [len] of a proxy is [len] of what it wraps, through any number of
    proxies, one level of calls per proxy. *)
Theorem len_through_every_layer n (metas : list (value Obj K)) d :
  rt_len (py (length metas + n)) (nested metas d) = rt_len (py n) d.
Proof.
  induction metas as [|e metas IH]; [done|].
  cbn [length nested Nat.add]. simpl. exact IH.
Qed.

Lemma join_metadata n (self : PolarsDataset Obj K) other args kw v :
  join h (py n) self other args kw = Ok v →
  ∃ d, v = rewrap self d.
Proof.
  destruct (assoc "self" kw) eqn:Hs;
    [by unfold join; rewrite call_apply_op_unfold, Hs|].
  destruct (assoc "_PolarsDataset__other" kw) eqn:Ho;
    [by unfold join; rewrite call_apply_op_unfold, Hs, Ho|].
  destruct (assoc "_PolarsDataset__op" kw) eqn:Hop;
    [by unfold join; rewrite call_apply_op_unfold, Hs, Ho, Hop|].
  assert (∀ rt x, join h rt self x args kw
                  = _apply_op h rt self x "join" args kw) as Hjoin.
  { intros rt x. unfold join. by apply call_apply_op_binds. }
  revert other. induction n as [|n IH]; intros other; rewrite Hjoin.
  - unfold _apply_op. destruct other; simpl; try done.
  - destruct other as [| | | | |o| |].
    6: { unfold _apply_op.
         change (getattribute h (py (S n)) self "join")
           with (Ok (VMethod self m_join) : outcome (value Obj K)).
         destruct (assoc "other" kw) eqn:Hkw.
         - simpl. unfold call_method, bind_args. simpl. by rewrite Hs, Hkw.
         - pose proof (join_bound_method (py n) (py (S n)) self (data o)
                         args kw Hs Hkw) as [Hj _].
           change (getattribute h (py (S n)) self "join")
             with (Ok (VMethod self m_join) : outcome (value Obj K)) in Hj.
           change (py (S n)) with (step h (py n)).
           rewrite Hj. apply IH. }
    all: unfold _apply_op.
    all: repeat match goal with
         | |- (?c ≫= _) = Ok _ → _ => destruct c; simpl; [|done]
         end.
    all: intros [= <-]; by eexists.
Qed.

(** X13.  Whatever [join] returns is a proxy with the metadata of [self]:
    the metadata of a proxy on the right is never taken, and a raw
    container never comes back. *)
Theorem join_result_is_proxy_of_self n (self : PolarsDataset Obj K)
    other args kw v :
  join h (py n) self other args kw = Ok v →
  ∃ p : PolarsDataset Obj K, v = VDataset p ∧ extra_attr p = extra_attr self.
Proof.
  intros Hv. destruct (join_metadata n self other args kw v Hv) as [d ->].
  by eexists.
Qed.

End Further.

(** ** The further properties on concrete inputs *)

Section FurtherRuns.
Import Toy.
Local Open Scope Z_scope.

(** A run of X1: the table behind a grouped view comes back in a proxy. *)
Lemma delegation_never_leaks_witness :
  __getattr__ polars (python polars 1)
    (mkPolarsDataset (VObj (Grouped [1; 2])) (VStr "X")) "df"
  = Ok (VDataset (tagged [1; 2] "X"))
  ∧ isinstance polars (VDataset (tagged [1; 2] "X")) DataFrameLikeClasses
    = false.
Proof.
  split; [reflexivity|].
  destruct (delegation_never_leaks polars (python polars 1)
              (mkPolarsDataset (VObj (Grouped [1; 2])) (VStr "X")))
    as (Hattr & _ & _).
  exact (Hattr "df" _ eq_refl).
Defined.

(** A run of X3: a proxy joined with a proxy, and a keyword that collides
    with the name parameter of [_apply_op]. *)
Lemma join_unwraps_and_rewraps_witness :
  join polars (python polars 2) (tagged [1] "X") (VDataset (tagged [2] "Y"))
    [VStr "key"] []
  = join polars (python polars 1) (tagged [1] "X") (VObj (Frame [2]))
      [VStr "key"] []
  ∧ join polars (python polars 1) (tagged [1] "X") (VObj (Frame [2]))
      [VStr "key"] []
    = Ok (VDataset (tagged [1; 2] "X"))
  ∧ join polars (python polars 2) (tagged [1] "X") (VObj (Frame [2])) []
      [("_PolarsDataset__op", VStr "join_asof")]
    = Raise TypeError.
Proof.
  destruct (join_unwraps_and_rewraps polars 1 (tagged [1] "X")
              [VStr "key"] []) as (_ & Hbinds).
  destruct (Hbinds eq_refl eq_refl eq_refl) as (Hproxy & Hplain).
  split; [exact (proj1 (Hproxy (tagged [2] "Y") eq_refl))|].
  split; [exact (proj1 (Hplain (VObj (Frame [2])) _ _ eq_refl) eq_refl eq_refl)|].
  destruct (join_unwraps_and_rewraps polars 2 (tagged [1] "X") []
              [("_PolarsDataset__op", VStr "join_asof")]) as (Hcollide & _).
  exact (proj1 (Hcollide (or_intror (or_intror (ex_intro _ _ eq_refl)))
                  (VObj (Frame [2])))).
Defined.

(** A run of X4: the payload of the left proxy is itself a proxy, so its
    routine returns a proxy, which is not tabular-family and comes back as
    it is, with the inner metadata. *)
Lemma comparison_returns_other_results_bare_witness :
  rt_getattr (python polars 2) (VDataset (tagged [1; 2] "inner"))
    (comp_route (VInt 1 : val))
  = Ok (VWrapper (tagged [1; 2] "inner")
          (VObj (Method (Frame [1; 2]) "_compare_to_non_df")))
  ∧ compare polars (python polars 3) op_gt
      (mkPolarsDataset (VDataset (tagged [1; 2] "inner")) (VStr "outer"))
      (VInt 1)
    = Ok (VDataset (tagged [0; 1] "inner")).
Proof.
  split; [reflexivity|].
  exact (comparison_returns_other_results_bare polars op_gt 2
           (mkPolarsDataset (VDataset (tagged [1; 2] "inner")) (VStr "outer"))
           (VInt 1) _ _ eq_refl eq_refl eq_refl eq_refl eq_refl).
Defined.

(** A run of X5: a name the table does not have. *)
Lemma delegation_propagates_failures_witness :
  found_by_lookup "missing" = false
  ∧ rt_getattr (python polars 1) (data (dataset [1])) "missing"
    = Raise AttributeError
  ∧ rt_getattr (python polars 2) (VDataset (dataset [1])) "missing"
    = Raise AttributeError.
Proof.
  split; [reflexivity|]. split; [reflexivity|].
  destruct (delegation_propagates_failures polars 1 (dataset [1])
              AttributeError) as (Hattr & _ & _).
  exact (Hattr "missing" eq_refl eq_refl).
Defined.

(** A run of X6: a table plus a string, and a table joined with an
    integer. *)
Lemma operators_propagate_failures_witness :
  rt_call (python polars 1) (VObj (Method (Frame [1]) "__add__"))
    [VStr "a"] []
  = Raise TypeError
  ∧ arithmetic polars (python polars 1) op_add (dataset [1]) (VStr "a")
    = Raise TypeError
  ∧ rt_call (python polars 1) (VObj (Method (Frame [1]) "join"))
      [VInt 3; VStr "key"] [("how", VStr "left")]
    = Raise TypeError
  ∧ join polars (python polars 1) (dataset [1]) (VInt 3) [VStr "key"]
      [("how", VStr "left")]
    = Raise TypeError.
Proof.
  split; [reflexivity|].
  destruct (operators_propagate_failures polars 1 (dataset [1]) TypeError)
    as (Harith & Hjoin & _).
  split; [exact (proj2 (Harith op_add (VStr "a") eq_refl) _ eq_refl eq_refl)|].
  split; [reflexivity|].
  exact (proj2 (Hjoin (VInt 3) [VStr "key"] [("how", VStr "left")]
                  eq_refl eq_refl eq_refl eq_refl) _ eq_refl eq_refl).
Defined.

(** A run of X7. *)
Lemma concat_uses_payloads_and_base_metadata_witness :
  concat polars (python polars 1) (map VDataset [tagged [1] "A"])
    (tagged [9] "X") []
  = concat polars (python polars 1) (map VDataset [tagged [1] "B"])
      (tagged [] "X") [].
Proof.
  exact (concat_uses_payloads_and_base_metadata polars 0
           [tagged [1] "A"] [tagged [1] "B"] (tagged [9] "X") (tagged [] "X")
           [] eq_refl eq_refl).
Defined.


(** A run of X9: [(proxy + 5).head(1)]. *)
Lemma metadata_survives_arithmetic_then_method_witness :
  arithmetic polars (python polars 1) op_add (tagged [1; 2] "X") (VInt 5)
  = Ok (VDataset (tagged [6; 7] "X"))
  ∧ (w ← __getattr__ polars (python polars 1) (tagged [6; 7] "X") "head";
     rt_call (python polars 2) w [VInt 1] [])
    = Ok (VDataset (tagged [6] "X")).
Proof.
  split; [reflexivity|].
  destruct (metadata_survives_arithmetic_then_method polars op_add 1
              (tagged [1; 2] "X") (VInt 5) _ eq_refl)
    as (p & Hp & _ & Hthen).
  injection Hp as <-.
  exact (Hthen 1%nat "head" _ [VInt 1] [] _
           eq_refl eq_refl eq_refl eq_refl eq_refl).
Defined.

(** A run of X13: the metadata of the right-hand proxy is dropped. *)
Lemma join_result_is_proxy_of_self_witness :
  join polars (python polars 2) (tagged [1] "X") (VDataset (tagged [2] "Y"))
    [] []
  = Ok (VDataset (tagged [1; 2] "X"))
  ∧ ∃ p : PolarsDataset obj Z,
      VDataset (tagged [1; 2] "X") = VDataset p
      ∧ extra_attr p = extra_attr (tagged [1] "X").
Proof.
  split; [reflexivity|].
  exact (join_result_is_proxy_of_self polars 2 (tagged [1] "X")
           (VDataset (tagged [2] "Y")) [] [] _ eq_refl).
Defined.

End FurtherRuns.
